(** * visualize.py: strategy comparison charts and pairwise t-tests

    A shallow embedding of [visualize.py].  The script is straight-line
    glue over four libraries, so the embedding has one small model per
    library (written after the library's documented behaviour) and then the
    script itself, statement by statement, in a state-and-exception monad
    over the process's world: the file system, standard output and
    pyplot's stack of open figures.

    Numbers are IEEE-754 binary64 throughout, as they are in numpy: Rocq's
    primitive [float] with NaN, infinities and signed zeros. *)

From Stdlib Require Import Floats ZArith Bool Lia Ascii DecimalString.
From stdpp Require Import gmap strings list sorting.

(** ** Exceptions and results *)

Inductive exn : Type :=
  | FileNotFoundError (path : string)
  | UnicodeDecodeError
  | EmptyDataError
  | ParserError
  | KeyError (key : string).

Inductive result (A : Type) : Type :=
  | Ok (a : A)
  | Raise (e : exn).
Arguments Ok {A} a.
Arguments Raise {A} e.


(** ** binary64 helpers *)

Module F64.
Local Open Scope float_scope.

Definition of_nat (n : nat) : float :=
  PrimFloat.of_uint63 (Uint63.of_Z (Z.of_nat n)).

(** Classification through the specification view of a float. *)
Definition finite (x : float) : bool :=
  match Prim2SF x with
  | S754_zero _ | S754_finite _ _ _ => true
  | S754_infinity _ | S754_nan => false
  end.

Definition isnan (x : float) : bool :=
  match Prim2SF x with S754_nan => true | _ => false end.

(** [close x y tol]: x is within [tol] of y.  Every comparison with a
    NaN is false, so a NaN is close to nothing. *)
Definition close (x y tol : float) : bool := abs (x - y) <=? tol.
End F64.

(** ** numpy *)

Module NumPy.
Local Open Scope float_scope.

(** A one-dimensional float64 array. *)
Definition ndarray : Type := list float.

(** [np.add.reduce]: the running sum, from the additive identity.  (On
    long arrays numpy adds in blocks, which moves the rounding of the sum
    and not the quantity it computes.) *)
Definition sum (a : ndarray) : float := fold_left PrimFloat.add a 0.

(** [np.mean(a)]: sum over count.  On an empty array this is [0/0],
    a NaN (numpy warns, it does not raise). *)
Definition mean (a : ndarray) : float := sum a / F64.of_nat (length a).

(** [np.var(a, ddof)]: the mean is subtracted, the deviations are
    squared and summed, and the sum is divided by [max (n - ddof) 0]. *)
Definition var (ddof : nat) (a : ndarray) : float :=
  let arrmean := sum a / F64.of_nat (length a) in
  let x := map (fun v => v - arrmean) a in
  let x := map (fun v => v * v) x in
  sum x / F64.of_nat (length a - ddof).

(** [np.std(a)]: square root of the variance; [ddof] defaults to 0. *)
Definition std_ddof (ddof : nat) (a : ndarray) : float := sqrt (var ddof a).
Definition std (a : ndarray) : float := std_ddof 0 a.
End NumPy.

(** ** pandas *)

Module Pandas.

(** The frame as the script sees it: the two columns it asks for, each
    present or not.  Where present, [strategy] holds strings and
    [average_shots] holds float64 values, the column types the input
    format asks for; other columns are never looked at.  A missing
    [strategy] cell compares unequal to every label, like any string that
    is no label.  Columns of another type (text under [average_shots], or
    the untyped columns of a file without data rows) are outside the
    model. *)
Record DataFrame : Type := {
  strategy : option (list string);
  average_shots : option (list float)
}.

(** Every column of a frame has one entry per row. *)
Definition wf (df : DataFrame) : Prop :=
  match strategy df, average_shots df with
  | Some s, Some v => length s = length v
  | _, _ => True
  end.

(** [df['strategy']] and [df['average_shots']]. *)
Definition getitem_strategy (df : DataFrame) : result (list string) :=
  match strategy df with
  | Some c => Ok c
  | None => Raise (KeyError "strategy")
  end.

Definition getitem_average_shots (df : DataFrame) : result (list float) :=
  match average_shots df with
  | Some c => Ok c
  | None => Raise (KeyError "average_shots")
  end.

(** [series == label]: the element-wise comparison, a boolean mask. *)
Definition eq_mask (series : list string) (label : string) : list bool :=
  map (fun s => String.eqb s label) series.

(** Keep the entries of a column whose mask bit is set. *)
Fixpoint take_mask {A} (mask : list bool) (col : list A) : list A :=
  match mask, col with
  | b :: mask', x :: col' =>
      if b then x :: take_mask mask' col' else take_mask mask' col'
  | _, _ => []
  end.

(** [df[mask]]: the rows whose mask bit is set, in every column. *)
Definition getitem_mask (df : DataFrame) (mask : list bool) : DataFrame :=
  {| strategy := take_mask mask <$> strategy df;
     average_shots := take_mask mask <$> average_shots df |}.

(** [.values]: the column as an array. *)
Definition values (col : list float) : NumPy.ndarray := col.

(** The rows of a frame that has both columns. *)
Definition rows (df : DataFrame) : list (string * float) :=
  match strategy df, average_shots df with
  | Some s, Some v => zip s v
  | _, _ => []
  end.


End Pandas.

(** ** Python's float formatting

    [format(x, '.4f')] and [format(x, '.4e')]: the decimal expansion of the
    exact binary value, correctly rounded (ties to even) to the requested
    number of digits.  NaN and the infinities print as words. *)

Module PyFormat.
Local Open Scope Z_scope.

(** The nearest integer to [num / den] for [den > 0], ties to even. *)
Definition round_half_even (num den : Z) : Z :=
  let q := num / den in
  let r := num mod den in
  if 2 * r <? den then q
  else if den <? 2 * r then q + 1
  else if Z.even q then q else q + 1.

(** The magnitude [m * 2^e] of a finite float as a fraction. *)
Definition magnitude (m : positive) (e : Z) : Z * Z :=
  if 0 <=? e then (Z.pos m * 2 ^ e, 1) else (Z.pos m, 2 ^ (- e)).

Definition digit (d : Z) : string :=
  String (Ascii.ascii_of_nat (48 + Z.to_nat (d mod 10))) "".

(** The last [n] decimal digits of [v], padded with zeros. *)
Fixpoint last_digits (n : nat) (v : Z) : string :=
  match n with
  | O => ""
  | S k => last_digits k (v / 10) +:+ digit v
  end.

(** All decimal digits of [v >= 0], at least one. *)
Definition decimal (v : Z) : string :=
  DecimalString.NilZero.string_of_uint (N.to_uint (Z.to_N v)).

Definition nb_digits (v : Z) : Z :=
  Z.of_nat (String.length (decimal v)).

Definition sign (s : bool) : string := if s then "-" else "".

(** The decimal point is printed when digits follow it. *)
Definition point (prec : nat) : string :=
  match prec with O => "" | S _ => "." end.

(** [prec] digits after the point, for the scaled integer
    [n = round (|x| * 10^prec)]. *)
Definition fixed (prec : nat) (n : Z) : string :=
  decimal (n / 10 ^ Z.of_nat prec) +:+ point prec +:+ last_digits prec n.

Definition format_f (prec : nat) (x : float) : string :=
  match Prim2SF x with
  | S754_nan => "nan"
  | S754_infinity s => sign s +:+ "inf"
  | S754_zero s => sign s +:+ fixed prec 0
  | S754_finite s m e =>
      let '(num, den) := magnitude m e in
      sign s +:+ fixed prec (round_half_even (num * 10 ^ Z.of_nat prec) den)
  end.

(** The fraction [num / den] divided by [10^k], again as a fraction. *)
Definition scale10 (num den k : Z) : Z * Z :=
  if 0 <=? k then (num, den * 10 ^ k) else (num * 10 ^ (- k), den).

(** [floor (log10 (num / den))] for a positive fraction: the digit counts
    of numerator and denominator give it up to one, and one comparison
    settles it. *)
Definition floor_log10 (num den : Z) : Z :=
  let k := nb_digits num - nb_digits den in
  let '(n, d) := scale10 num den k in
  if d <=? n then k else k - 1.

(** The exponent field: a sign and at least two digits.  The decimal
    exponent of a binary64 value has at most three. *)
Definition exponent (k : Z) : string :=
  (if k <? 0 then "-" else "+") +:+
  (if Z.abs k <? 100 then last_digits 2 (Z.abs k)
   else last_digits 3 (Z.abs k)).

(** One digit, the point, [prec] digits, then the exponent, for the
    scaled integer [n] of [prec + 1] digits. *)
Definition scientific (prec : nat) (n k : Z) : string :=
  digit (n / 10 ^ Z.of_nat prec) +:+ point prec +:+ last_digits prec n +:+
  "e" +:+ exponent k.

Definition format_e (prec : nat) (x : float) : string :=
  match Prim2SF x with
  | S754_nan => "nan"
  | S754_infinity s => sign s +:+ "inf"
  | S754_zero s => sign s +:+ scientific prec 0 0
  | S754_finite s m e =>
      let '(num, den) := magnitude m e in
      let k := floor_log10 num den in
      let '(n, d) := scale10 num den (k - Z.of_nat prec) in
      let r := round_half_even n d in
      (* rounding up to the next power of ten moves the exponent *)
      if r =? 10 ^ Z.of_nat (S prec)
      then sign s +:+ scientific prec (10 ^ Z.of_nat prec) (k + 1)
      else sign s +:+ scientific prec r k
  end.
End PyFormat.

(** ** scipy.stats *)

Module SciPy.
Local Open Scope float_scope.

Inductive alternative : Type := TwoSided | Less | Greater.

Section Student.
(** [scipy.special.stdtr df t]: the cumulative distribution function of
    Student's t with [df] degrees of freedom.  It is a special function
    of the library; the script's results are stated relative to it. *)
Variable stdtr : float -> float -> float.

(** Pooled variance: [df = n1 + n2 - 2] and the standard error of the
    difference of means. *)
Definition equal_var_ttest_denom (v1 n1 v2 n2 : float) : float * float :=
  let df := n1 + n2 - 2 in
  let svar := ((n1 - 1) * v1 + (n2 - 1) * v2) / df in
  let denom := sqrt (svar * (1 / n1 + 1 / n2)) in
  (df, denom).

(** Welch's variant, taken when [equal_var] is false. *)
Definition unequal_var_ttest_denom (v1 n1 v2 n2 : float) : float * float :=
  let vn1 := v1 / n1 in
  let vn2 := v2 / n2 in
  let df := ((vn1 + vn2) * (vn1 + vn2))
            / ((vn1 * vn1) / (n1 - 1) + (vn2 * vn2) / (n2 - 1)) in
  let df := if F64.isnan df then 1 else df in
  let denom := sqrt (vn1 + vn2) in
  (df, denom).

Definition pvalue (alt : alternative) (df t : float) : float :=
  match alt with
  | Less => stdtr df t
  | Greater => stdtr df (- t)
  | TwoSided => stdtr df (- abs t) * 2
  end.

Definition ttest_ind_from_stats
    (alt : alternative) (mean1 mean2 denom df : float) : float * float :=
  let d := mean1 - mean2 in
  let t := d / denom in
  (t, pvalue alt df t).

(** [stats.ttest_ind(a, b, equal_var, alternative)].  An empty sample
    gives NaN for both numbers; otherwise the variances are the corrected
    ones ([ddof = 1]). *)
Definition ttest_ind_with
    (equal_var : bool) (alt : alternative)
    (a b : NumPy.ndarray) : float * float :=
  match a, b with
  | [], _ | _, [] => (nan, nan)
  | _, _ =>
      let v1 := NumPy.var 1 a in
      let v2 := NumPy.var 1 b in
      let n1 := F64.of_nat (length a) in
      let n2 := F64.of_nat (length b) in
      let '(df, denom) :=
        if equal_var then equal_var_ttest_denom v1 n1 v2 n2
        else unequal_var_ttest_denom v1 n1 v2 n2 in
      ttest_ind_from_stats alt (NumPy.mean a) (NumPy.mean b) denom df
  end.

(** The call as the script writes it: both keyword arguments at their
    defaults, [equal_var=True] and [alternative='two-sided']. *)
Definition ttest_ind (a b : NumPy.ndarray) : float * float :=
  ttest_ind_with true TwoSided a b.
End Student.


End SciPy.

(** ** matplotlib.pyplot *)

Module Pyplot.

Inductive artist : Type :=
  | Bar (x : list string) (height yerr : list float) (capsize : Z)
  | Boxplot (x : list NumPy.ndarray) (labels : list string).

Record Figure : Type := {
  figsize : option (Z * Z);      (* [None]: the configured default *)
  artists : list artist;
  title : string;
  ylabel : string
}.

Definition new_figure (size : option (Z * Z)) : Figure :=
  {| figsize := size; artists := []; title := ""; ylabel := "" |}.

(** pyplot keeps its open figures on a stack; the head is current. *)
Definition state : Type := list Figure.

(** [plt.figure(figsize=...)]: a new figure, made current. *)
Definition figure (size : Z * Z) (st : state) : state :=
  new_figure (Some size) :: st.

(** The current figure; one is created when none is open. *)
Definition gcf (st : state) : Figure * state :=
  match st with
  | f :: rest => (f, rest)
  | [] => (new_figure None, [])
  end.

Definition on_current (g : Figure -> Figure) (st : state) : state :=
  let '(f, rest) := gcf st in g f :: rest.

Definition add_artist (a : artist) (f : Figure) : Figure :=
  {| figsize := figsize f; artists := artists f ++ [a];
     title := title f; ylabel := ylabel f |}.

Definition bar (x : list string) (height yerr : list float) (capsize : Z)
  : state -> state :=
  on_current (add_artist (Bar x height yerr capsize)).

Definition boxplot (x : list NumPy.ndarray) (labels : list string)
  : state -> state :=
  on_current (add_artist (Boxplot x labels)).

Definition set_title (s : string) : state -> state :=
  on_current (fun f =>
    {| figsize := figsize f; artists := artists f;
       title := s; ylabel := ylabel f |}).

Definition set_ylabel (s : string) : state -> state :=
  on_current (fun f =>
    {| figsize := figsize f; artists := artists f;
       title := title f; ylabel := s |}).

(** [plt.close()]: the current figure is closed, if there is one. *)
Definition close (st : state) : state := tail st.

End Pyplot.

(** ** The process's world and the script monad *)

(** A file holds bytes, or the rendering of a figure. *)
Inductive content : Type :=
  | Bytes (data : string)
  | Png (fig : Pyplot.Figure).

Record World : Type := {
  fs : gmap string content;
  stdout : list string;          (* the lines printed so far *)
  figures : Pyplot.state
}.

(** A statement runs in a world, leaves a world, and returns or raises.
    What was done before an exception stays done. *)
Definition M (A : Type) : Type := World -> result A * World.

#[export] Instance result_ret : MRet result := fun A a => Ok a.
#[export] Instance result_bind : MBind result := fun A B f r =>
  match r with Ok a => f a | Raise e => Raise e end.

#[export] Instance result_fmap : FMap result := fun A B f r =>
  match r with Ok a => Ok (f a) | Raise e => Raise e end.

#[export] Instance M_ret : MRet M := fun A a w => (Ok a, w).
#[export] Instance M_bind : MBind M := fun A B f m w =>
  match m w with
  | (Ok a, w') => f a w'
  | (Raise e, w') => (Raise e, w')
  end.

Definition lift {A} (r : result A) : M A := fun w => (r, w).

Definition plt (g : Pyplot.state -> Pyplot.state) : M unit := fun w =>
  (Ok tt, {| fs := fs w; stdout := stdout w; figures := g (figures w) |}).

(** [plt.savefig(fname)]: the current figure is written under [fname],
    over whatever was there. *)
Definition savefig (fname : string) : M unit := fun w =>
  let '(f, rest) := Pyplot.gcf (figures w) in
  (Ok tt, {| fs := <[fname := Png f]> (fs w); stdout := stdout w;
             figures := f :: rest |}).

(** [print(line)]. *)
Definition print (line : string) : M unit := fun w =>
  (Ok tt, {| fs := fs w; stdout := stdout w ++ [line];
             figures := figures w |}).


(** ** The script *)

(** The module's global names, as they stand when the script ends. *)
Module Globals.
Record t : Type := {
  df : Pandas.DataFrame;
  random_results : NumPy.ndarray;
  pdf_results : NumPy.ndarray;
  hunt_target_results : NumPy.ndarray;
  strategies : list string;
  means : list float;
  stds : list float;
  t_random_pdf : float;
  p_random_pdf : float;
  t_random_hunt : float;
  p_random_hunt : float;
  t_pdf_hunt : float;
  p_pdf_hunt : float
}.

End Globals.

(** [df[df['strategy'] == label]['average_shots'].values] *)
Definition select (df : Pandas.DataFrame) (label : string)
  : result NumPy.ndarray :=
  series ← Pandas.getitem_strategy df;
  let matching := Pandas.getitem_mask df (Pandas.eq_mask series label) in
  shots ← Pandas.getitem_average_shots matching;
  mret (Pandas.values shots).

(** One line of the report: [f"{a} vs {b}: t={t:.4f}, p={p:.4e}"]. *)
Definition report_line (a b : string) (tp : float * float) : string :=
  a +:+ " vs " +:+ b +:+ ": t=" +:+ PyFormat.format_f 4 (fst tp)
    +:+ ", p=" +:+ PyFormat.format_e 4 (snd tp).

Section Script.
(** The two library functions the model leaves open: pandas' reader of
    CSV text, and the Student distribution function of scipy. *)
Variable parse_csv : string -> result Pandas.DataFrame.
Variable stdtr : float -> float -> float.

(** [pd.read_csv(path)] *)
Definition read_csv (path : string) : M Pandas.DataFrame := fun w =>
  match fs w !! path with
  | None => (Raise (FileNotFoundError path), w)
  | Some (Bytes data) => (parse_csv data, w)
  | Some (Png _) => (Raise UnicodeDecodeError, w)
  end.

(** Everything after the load, lines 9 to 42. *)
Definition analyse (df : Pandas.DataFrame) : M Globals.t :=
  (* Separate results for each strategy *)
  random_results ← lift (select df "Random");
  pdf_results ← lift (select df "PDF");
  hunt_target_results ← lift (select df "Hunt and Target");
  let strategies := ["Random"; "PDF"; "Hunt and Target"] in
  let means := [NumPy.mean random_results; NumPy.mean pdf_results;
                NumPy.mean hunt_target_results] in
  let stds := [NumPy.std random_results; NumPy.std pdf_results;
               NumPy.std hunt_target_results] in
  (* Bar chart *)
  plt (Pyplot.figure (10, 6)%Z);;
  plt (Pyplot.bar strategies means stds 5);;
  plt (Pyplot.set_title "Average Shots to Win by Strategy");;
  plt (Pyplot.set_ylabel "Number of Shots");;
  savefig "strategy_comparison.png";;
  plt Pyplot.close;;
  (* Box plot *)
  plt (Pyplot.figure (10, 6)%Z);;
  plt (Pyplot.boxplot [random_results; pdf_results; hunt_target_results]
                      strategies);;
  plt (Pyplot.set_title "Distribution of Shots to Win by Strategy");;
  plt (Pyplot.set_ylabel "Number of Shots");;
  savefig "strategy_distribution.png";;
  plt Pyplot.close;;
  (* T-tests *)
  let random_pdf := SciPy.ttest_ind stdtr random_results pdf_results in
  let random_hunt :=
    SciPy.ttest_ind stdtr random_results hunt_target_results in
  let pdf_hunt := SciPy.ttest_ind stdtr pdf_results hunt_target_results in
  print "T-test results:";;
  print (report_line "Random" "PDF" random_pdf);;
  print (report_line "Random" "Hunt and Target" random_hunt);;
  print (report_line "PDF" "Hunt and Target" pdf_hunt);;
  mret {| Globals.df := df;
          Globals.random_results := random_results;
          Globals.pdf_results := pdf_results;
          Globals.hunt_target_results := hunt_target_results;
          Globals.strategies := strategies;
          Globals.means := means;
          Globals.stds := stds;
          Globals.t_random_pdf := fst random_pdf;
          Globals.p_random_pdf := snd random_pdf;
          Globals.t_random_hunt := fst random_hunt;
          Globals.p_random_hunt := snd random_hunt;
          Globals.t_pdf_hunt := fst pdf_hunt;
          Globals.p_pdf_hunt := snd pdf_hunt |}.

Definition script : M Globals.t :=
  (* Read the CSV output from the C program *)
  df ← read_csv "battleship_results.csv";
  analyse df.
End Script.

(** ** Notions of the specification *)

Module Spec.
(** The three fixed strategy labels. *)
Definition labels : list string := ["Random"; "PDF"; "Hunt and Target"].

(** [sample] is the ordered subsequence of the values of the rows
    labelled [label]: some strictly increasing list of row numbers holds
    exactly the rows with that label, and the sample lists their values
    in that order. *)
Definition ordered_subsequence
    (table : list (string * float)) (label : string)
    (sample : list float) : Prop :=
  exists idx : list nat,
    StronglySorted lt idx /\
    (forall i, i ∈ idx <-> exists v, table !! i = Some (label, v)) /\
    Forall2 (fun i v => table !! i = Some (label, v)) idx sample.

Definition total (xs : list float) : float :=
  fold_left PrimFloat.add xs 0%float.

Definition count (xs : list float) : float := F64.of_nat (length xs).

(** Arithmetic mean: the total over the number of values. *)
Definition arithmetic_mean (xs : list float) : float :=
  (total xs / count xs)%float.






Definition is_digit (c : ascii) : bool :=
  let n := nat_of_ascii c in (48 <=? n) && (n <=? 57).

Fixpoint all_digits (s : string) : bool :=
  match s with
  | EmptyString => true
  | String c rest => is_digit c && all_digits rest
  end.

(** An optional minus sign, digits, a point, and [prec] digits. *)
Definition fixed_point (prec : nat) (s : string) : Prop :=
  exists (neg : bool) (int frac : string),
    s = (if neg then "-" else "") +:+ int +:+ "." +:+ frac /\
    0 < String.length int /\ all_digits int = true /\
    String.length frac = prec /\ all_digits frac = true.

(** An optional minus sign, one digit, a point, [prec] digits, [e], a
    sign and at least two exponent digits. *)
Definition scientific (prec : nat) (s : string) : Prop :=
  exists (neg eneg : bool) (d : ascii) (frac ex : string),
    s = (if neg then "-" else "") +:+ String d "" +:+ "." +:+ frac +:+ "e"
        +:+ (if eneg then "-" else "+") +:+ ex /\
    is_digit d = true /\
    String.length frac = prec /\ all_digits frac = true /\
    2 <= String.length ex /\ all_digits ex = true.
End Spec.

(** ** What a complete run leaves behind, as functions of the three samples *)

Definition cmp_png : string := "strategy_comparison.png".
Definition dist_png : string := "strategy_distribution.png".
Definition csv_path : string := "battleship_results.csv".

Definition bar_chart (r p h : NumPy.ndarray) : Pyplot.Figure :=
  {| Pyplot.figsize := Some (10, 6)%Z;
     Pyplot.artists :=
       [Pyplot.Bar Spec.labels
          [NumPy.mean r; NumPy.mean p; NumPy.mean h]
          [NumPy.std r; NumPy.std p; NumPy.std h] 5];
     Pyplot.title := "Average Shots to Win by Strategy";
     Pyplot.ylabel := "Number of Shots" |}.

Definition box_plot (r p h : NumPy.ndarray) : Pyplot.Figure :=
  {| Pyplot.figsize := Some (10, 6)%Z;
     Pyplot.artists := [Pyplot.Boxplot [r; p; h] Spec.labels];
     Pyplot.title := "Distribution of Shots to Win by Strategy";
     Pyplot.ylabel := "Number of Shots" |}.

Definition report (stdtr : float -> float -> float)
    (r p h : NumPy.ndarray) : list string :=
  [ "T-test results:";
    report_line "Random" "PDF" (SciPy.ttest_ind stdtr r p);
    report_line "Random" "Hunt and Target" (SciPy.ttest_ind stdtr r h);
    report_line "PDF" "Hunt and Target" (SciPy.ttest_ind stdtr p h) ].

Definition summary (stdtr : float -> float -> float)
    (df : Pandas.DataFrame) (r p h : NumPy.ndarray) : Globals.t :=
  {| Globals.df := df;
     Globals.random_results := r;
     Globals.pdf_results := p;
     Globals.hunt_target_results := h;
     Globals.strategies := Spec.labels;
     Globals.means := [NumPy.mean r; NumPy.mean p; NumPy.mean h];
     Globals.stds := [NumPy.std r; NumPy.std p; NumPy.std h];
     Globals.t_random_pdf := fst (SciPy.ttest_ind stdtr r p);
     Globals.p_random_pdf := snd (SciPy.ttest_ind stdtr r p);
     Globals.t_random_hunt := fst (SciPy.ttest_ind stdtr r h);
     Globals.p_random_hunt := snd (SciPy.ttest_ind stdtr r h);
     Globals.t_pdf_hunt := fst (SciPy.ttest_ind stdtr p h);
     Globals.p_pdf_hunt := snd (SciPy.ttest_ind stdtr p h) |}.

(** The globals as a function of the loaded table alone. *)
Definition derive (stdtr : float -> float -> float)
    (df : Pandas.DataFrame) : result Globals.t :=
  r ← select df "Random";
  p ← select df "PDF";
  h ← select df "Hunt and Target";
  mret (summary stdtr df r p h).

(** The world after a complete run. *)
Definition after_run (stdtr : float -> float -> float)
    (r p h : NumPy.ndarray) (w : World) : World :=
  {| fs := <[dist_png := Png (box_plot r p h)]>
             (<[cmp_png := Png (bar_chart r p h)]> (fs w));
     stdout := stdout w ++ report stdtr r p h;
     figures := figures w |}.

(** The three samples in the order of [strategies]. *)
Definition samples (g : Globals.t) : list NumPy.ndarray :=
  [Globals.random_results g; Globals.pdf_results g;
   Globals.hunt_target_results g].

(** What a run adds to standard output. *)
Definition printed (before after : World) : list string :=
  drop (length (stdout before)) (stdout after).

(** ** Instances for running the script

    A reader for plain CSV text and the closed form of the Student
    distribution with two degrees of freedom: enough to run the script on
    files with two trials per strategy. *)

Module PlainCsv.

Fixpoint split_on (sep : ascii) (s : string) : list string :=
  match s with
  | EmptyString => [""]
  | String c rest =>
      if Ascii.eqb c sep then "" :: split_on sep rest
      else match split_on sep rest with
           | field :: fields => String c field :: fields
           | [] => [String c ""]
           end
  end.

Definition digit_value (c : ascii) : option Z :=
  let n := Z.of_nat (nat_of_ascii c) in
  if ((48 <=? n) && (n <=? 57))%Z then Some (n - 48)%Z else None.

Fixpoint digits_value (acc : Z) (s : string) : option Z :=
  match s with
  | EmptyString => Some acc
  | String c rest =>
      d ← digit_value c; digits_value (10 * acc + d)%Z rest
  end.

Definition of_Z (n : Z) : float := PrimFloat.of_uint63 (Uint63.of_Z n).

(** An unsigned decimal of at most fifteen digits: numerator and power
    of ten are exact floats, and one division rounds correctly. *)
Definition number (s : string) : option float :=
  match split_on "." s with
  | [i] =>
      if (0 <? String.length i) && (String.length i <=? 15)
      then of_Z <$> digits_value 0 i else None
  | [i; f] =>
      if (0 <? String.length i + String.length f)
         && (String.length i + String.length f <=? 15)
      then n ← digits_value 0 (i +:+ f);
           Some (of_Z n / of_Z (10 ^ Z.of_nat (String.length f)))%float
      else None
  | _ => None
  end.

Definition column {A} (header : list string) (records : list (list string))
    (name : string) (cell : string -> option A) : result (option (list A)) :=
  match list_find (fun h => h = name) header with
  | None => Ok None
  | Some (i, _) =>
      match mapM (fun r => r !! i ≫= cell) records with
      | Some c => Ok (Some c)
      | None => Raise ParserError
      end
  end.

(** A header line, then one record per line with as many fields as the
    header; blank lines are skipped.  Anything else is refused. *)
Definition read (data : string) : result Pandas.DataFrame :=
  match filter (fun l => l ≠ "") (split_on "010" data) with
  | [] => Raise EmptyDataError
  | head :: body =>
      let header := split_on "," head in
      let records := split_on "," <$> body in
      if forallb (fun r => length r =? length header) records then
        s ← column header records "strategy" Some;
        v ← column header records "average_shots" number;
        mret {| Pandas.strategy := s; Pandas.average_shots := v |}
      else Raise ParserError
  end.
End PlainCsv.

Module Student2.
Local Open Scope float_scope.

(** With two degrees of freedom the distribution function is
    [1/2 + t / (2 sqrt (2 + t^2))]; other degrees are not tabulated. *)
Definition stdtr (df t : float) : float :=
  if df =? 2 then 0.5 + t / (2 * sqrt (2 + t * t)) else nan.
End Student2.

Definition LF : string := String "010" "".

(** The sample file of the specification, two trials per strategy. *)
Definition sample_csv : string :=
  "strategy,average_shots" +:+ LF +:+
  "Random,10" +:+ LF +:+ "Random,12" +:+ LF +:+
  "PDF,5" +:+ LF +:+ "PDF,5" +:+ LF +:+
  "Hunt and Target,3" +:+ LF +:+ "Hunt and Target,4" +:+ LF.

Definition world_with (csv : string) : World :=
  {| fs := {[ "battleship_results.csv" := Bytes csv ]};
     stdout := []; figures := [] |}.

Definition run (w : World) : result Globals.t * World :=
  script PlainCsv.read Student2.stdtr w.

(** The table the reader makes of [sample_csv], and what a run on it
    leaves. *)
Definition sample_df : Pandas.DataFrame :=
  {| Pandas.strategy :=
       Some ["Random"; "Random"; "PDF"; "PDF";
             "Hunt and Target"; "Hunt and Target"];
     Pandas.average_shots := Some [10; 12; 5; 5; 3; 4]%float |}.

Definition sample_globals : Globals.t :=
  summary Student2.stdtr sample_df [10; 12]%float [5; 5]%float [3; 4]%float.

Definition sample_after : World :=
  after_run Student2.stdtr [10; 12]%float [5; 5]%float [3; 4]%float
    (world_with sample_csv).



(** The sample file with a trial of a fourth strategy after the second
    row. *)
Definition extra_row_csv : string :=
  "strategy,average_shots" +:+ LF +:+
  "Random,10" +:+ LF +:+ "Random,12" +:+ LF +:+ "Sonar,99" +:+ LF +:+
  "PDF,5" +:+ LF +:+ "PDF,5" +:+ LF +:+
  "Hunt and Target,3" +:+ LF +:+ "Hunt and Target,4" +:+ LF.

(** A world that already holds an old chart, earlier output and an open
    figure. *)
Definition busy_world : World :=
  {| fs := {[ "battleship_results.csv" := Bytes sample_csv;
              "strategy_comparison.png" := Bytes "stale" ]};
     stdout := ["earlier output"];
     figures := [Pyplot.new_figure None] |}.

(** ** More example inputs *)


(** A table with a missing value among the "PDF" trials. *)
Definition nan_df : Pandas.DataFrame :=
  {| Pandas.strategy := Some ["Random"; "Random"; "PDF"; "PDF"];
     Pandas.average_shots := Some [10; 12; 5; nan]%float |}.

(** Some value of the array is a NaN. *)
Definition has_nan (a : NumPy.ndarray) : bool := existsb F64.isnan a.

(** The sign bit is clear, or the number is a NaN. *)
Definition not_negative (x : float) : bool :=
  match Prim2SF x with
  | S754_zero s | S754_infinity s | S754_finite s _ _ => negb s
  | S754_nan => true
  end.

(** The globals of a run that ended normally, [other] if it did not. *)
Definition fst_ok (r : result Globals.t * World) (other : Globals.t)
  : Globals.t :=
  match fst r with Ok g => g | Raise _ => other end.

(** What a run leaves of [busy_world]. *)
Definition busy_after : World :=
  after_run Student2.stdtr [10; 12]%float [5; 5]%float [3; 4]%float busy_world.

(** The number has sign [s], or is a NaN. *)
Definition sign_is (s : bool) (x : spec_float) : Prop :=
  match x with
  | S754_zero s' | S754_infinity s' | S754_finite s' _ _ => s' = s
  | S754_nan => True
  end.

(** What the analysis leaves of [nan_df]. *)
Definition nan_globals : Globals.t :=
  summary Student2.stdtr nan_df [10; 12]%float [5; nan]%float [].

(** * Properties *)

(** ** The partitioner *)

Section Partition.
Import Pandas.

(** Masking a column is filtering the rows and keeping the value. *)
Lemma take_mask_filter series shots label :
  take_mask (eq_mask series label) shots
  = snd <$> filter (fun r : string * float => fst r = label) (zip series shots).
Proof.
  revert shots. induction series as [|s series IH]; intros [|x shots];
    simpl; try done.
  rewrite filter_cons. simpl.
  destruct (String.eqb_spec s label) as [->|Hne].
  - rewrite decide_True by done. simpl. by rewrite IH.
  - rewrite decide_False by done. apply IH.
Qed.

Lemma ordered_subsequence_nil label :
  Spec.ordered_subsequence [] label [].
Proof.
  exists []. split_and!; [constructor | | constructor].
  intros i. split; [by intros ?%elem_of_nil | by intros [v ?]].
Qed.

(** A row with another label in front shifts the row numbers by one. *)
Lemma ordered_subsequence_skip table label sample r :
  fst r ≠ label ->
  Spec.ordered_subsequence table label sample ->
  Spec.ordered_subsequence (r :: table) label sample.
Proof.
  intros Hne (idx & Hsorted & Hmem & Hsel).
  exists (S <$> idx). split_and!.
  - apply (StronglySorted_fmap S lt lt); [|done]. intros ??; lia.
  - intros [|i]; simpl.
    + split.
      * intros (j & ? & _)%list_elem_of_fmap. lia.
      * intros [v Hv]. by simplify_eq.
    + rewrite <- Hmem. split.
      * intros (j & ? & ?)%list_elem_of_fmap. by simplify_eq.
      * intros ?. apply list_elem_of_fmap. eauto.
  - apply Forall2_fmap_l. eapply Forall2_impl; [exact Hsel|]. done.
Qed.

(** A row with the label in front is the first row of the selection. *)
Lemma ordered_subsequence_keep table label sample v :
  Spec.ordered_subsequence table label sample ->
  Spec.ordered_subsequence ((label, v) :: table) label (v :: sample).
Proof.
  intros (idx & Hsorted & Hmem & Hsel).
  exists (0 :: (S <$> idx)). split_and!.
  - constructor.
    + apply (StronglySorted_fmap S lt lt); [|done]. intros ??; lia.
    + apply Forall_fmap, Forall_forall. intros ??; simpl; lia.
  - intros [|i]; simpl.
    + split; [eauto | intros _; left].
    + rewrite <- Hmem. split.
      * intros [?|(j & ? & ?)%list_elem_of_fmap]%elem_of_cons; by simplify_eq.
      * intros ?. right. apply list_elem_of_fmap. eauto.
  - constructor; [done|].
    apply Forall2_fmap_l. eapply Forall2_impl; [exact Hsel|]. done.
Qed.

Lemma take_mask_ordered_subsequence series shots label :
  length series = length shots ->
  Spec.ordered_subsequence (zip series shots) label
    (take_mask (eq_mask series label) shots).
Proof.
  revert shots. induction series as [|s series IH]; intros [|x shots] Hlen;
    simpl in *; try done.
  - apply ordered_subsequence_nil.
  - destruct (String.eqb_spec s label) as [->|Hne].
    + apply ordered_subsequence_keep, IH. lia.
    + apply ordered_subsequence_skip; [done|]. apply IH. lia.
Qed.

(** [select] on a frame that has both columns. *)
Lemma select_columns df series shots label :
  strategy df = Some series -> average_shots df = Some shots ->
  select df label = Ok (take_mask (eq_mask series label) shots).
Proof.
  intros Hs Hv. unfold select, getitem_strategy. rewrite Hs. simpl.
  unfold getitem_average_shots, getitem_mask. simpl. rewrite Hv. done.
Qed.

(** [select] raises exactly when a column is missing, whatever the label. *)
Lemma select_raises df label :
  strategy df = None \/ average_shots df = None ->
  exists key, select df label = Raise (KeyError key).
Proof.
  intros H. unfold select, getitem_strategy.
  destruct (strategy df) as [series|] eqn:Hs; simpl; [|eauto].
  destruct H as [?|Hv]; [done|].
  unfold getitem_average_shots, getitem_mask. simpl. rewrite Hv. simpl. eauto.
Qed.
End Partition.

(** ** Running the script *)

Section Run.
Variable parse_csv : string -> result Pandas.DataFrame.
Variable stdtr : float -> float -> float.

(** With both columns present the analysis runs to the end. *)
Lemma analyse_samples df r p h w :
  select df "Random" = Ok r -> select df "PDF" = Ok p ->
  select df "Hunt and Target" = Ok h ->
  analyse stdtr df w = (Ok (summary stdtr df r p h), after_run stdtr r p h w).
Proof.
  intros Hr Hp Hh. unfold analyse, mbind, M_bind, lift.
  rewrite Hr, Hp, Hh. simpl. unfold after_run, report. simpl.
  rewrite <- !app_assoc. reflexivity.
Qed.

Lemma analyse_columns df series shots w :
  Pandas.strategy df = Some series -> Pandas.average_shots df = Some shots ->
  let sample label := Pandas.take_mask (Pandas.eq_mask series label) shots in
  analyse stdtr df w
  = (Ok (summary stdtr df (sample "Random") (sample "PDF")
                 (sample "Hunt and Target")),
     after_run stdtr (sample "Random") (sample "PDF")
               (sample "Hunt and Target") w).
Proof.
  intros Hs Hv sample. apply analyse_samples; by apply select_columns.
Qed.

(** With a column missing the first selection raises, and nothing has
    been done yet. *)
Lemma analyse_raises df w :
  Pandas.strategy df = None \/ Pandas.average_shots df = None ->
  exists key, analyse stdtr df w = (Raise (KeyError key), w).
Proof.
  intros H. destruct (select_raises df "Random" H) as [key Hkey].
  exists key. unfold analyse, mbind, M_bind, lift. by rewrite Hkey.
Qed.

(** The value of the analysis does not depend on the world. *)
Lemma analyse_derive df w : fst (analyse stdtr df w) = derive stdtr df.
Proof.
  unfold derive.
  destruct (Pandas.strategy df) as [series|] eqn:Hs;
    [destruct (Pandas.average_shots df) as [shots|] eqn:Hv|].
  - rewrite (analyse_columns df series shots w Hs Hv).
    by rewrite !(select_columns df series shots _ Hs Hv).
  - destruct (analyse_raises df w (or_intror Hv)) as [key Hkey].
    rewrite Hkey. simpl.
    destruct (select_raises df "Random" (or_intror Hv)) as [key' Hkey'].
    rewrite Hkey'. simpl.
    unfold analyse, mbind, M_bind, lift in Hkey. rewrite Hkey' in Hkey.
    by simplify_eq.
  - destruct (analyse_raises df w (or_introl Hs)) as [key Hkey].
    rewrite Hkey. simpl.
    destruct (select_raises df "Random" (or_introl Hs)) as [key' Hkey'].
    rewrite Hkey'. simpl.
    unfold analyse, mbind, M_bind, lift in Hkey. rewrite Hkey' in Hkey.
    by simplify_eq.
Qed.

(** The three ways the load ends. *)
Lemma script_missing_file w :
  fs w !! csv_path = None ->
  script parse_csv stdtr w = (Raise (FileNotFoundError csv_path), w).
Proof.
  intros H. unfold script, mbind, M_bind, read_csv.
  change "battleship_results.csv" with csv_path. by rewrite H.
Qed.

Lemma script_not_text w fig :
  fs w !! csv_path = Some (Png fig) ->
  script parse_csv stdtr w = (Raise UnicodeDecodeError, w).
Proof.
  intros H. unfold script, mbind, M_bind, read_csv.
  change "battleship_results.csv" with csv_path. by rewrite H.
Qed.

Lemma script_parse_raises w data e :
  fs w !! csv_path = Some (Bytes data) -> parse_csv data = Raise e ->
  script parse_csv stdtr w = (Raise e, w).
Proof.
  intros H He. unfold script, mbind, M_bind, read_csv.
  change "battleship_results.csv" with csv_path. by rewrite H, He.
Qed.

Lemma script_loaded w data df :
  fs w !! csv_path = Some (Bytes data) -> parse_csv data = Ok df ->
  script parse_csv stdtr w = analyse stdtr df w.
Proof.
  intros H He. unfold script, mbind, M_bind, read_csv.
  change "battleship_results.csv" with csv_path. by rewrite H, He.
Qed.

(** A run that ends normally loaded a table with both columns, and left
    the summary and the world the analysis describes. *)
Lemma script_ok_inv w g w' :
  script parse_csv stdtr w = (Ok g, w') ->
  exists data df series shots,
    fs w !! csv_path = Some (Bytes data) /\ parse_csv data = Ok df /\
    Pandas.strategy df = Some series /\ Pandas.average_shots df = Some shots /\
    let sample label := Pandas.take_mask (Pandas.eq_mask series label) shots in
    g = summary stdtr df (sample "Random") (sample "PDF")
                (sample "Hunt and Target") /\
    w' = after_run stdtr (sample "Random") (sample "PDF")
                   (sample "Hunt and Target") w.
Proof.
  intros Hrun.
  destruct (fs w !! csv_path) as [[data|fig]|] eqn:Hfile.
  - destruct (parse_csv data) as [df|e] eqn:Hparse.
    + rewrite (script_loaded w data df Hfile Hparse) in Hrun.
      destruct (Pandas.strategy df) as [series|] eqn:Hs;
        [destruct (Pandas.average_shots df) as [shots|] eqn:Hv|].
      * rewrite (analyse_columns df series shots w Hs Hv) in Hrun.
        simplify_eq. by exists data, df, series, shots.
      * destruct (analyse_raises df w (or_intror Hv)) as [key Hkey].
        congruence.
      * destruct (analyse_raises df w (or_introl Hs)) as [key Hkey].
        congruence.
    + rewrite (script_parse_raises w data e Hfile Hparse) in Hrun. done.
  - rewrite (script_not_text w fig Hfile) in Hrun. done.
  - rewrite (script_missing_file w Hfile) in Hrun. done.
Qed.
End Run.

(** ** binary64 facts *)

Section Floats.
Local Open Scope float_scope.



End Floats.

(** ** Facts about the formatting *)

Section Formatting.
Import PyFormat.

Lemma all_digits_app a b :
  Spec.all_digits (a +:+ b) = Spec.all_digits a && Spec.all_digits b.
Proof.
  induction a as [|c a IH]; simpl; [done|].
  by rewrite IH, andb_assoc.
Qed.

Lemma length_app_string a b :
  String.length (a +:+ b) = String.length a + String.length b.
Proof. induction a as [|c a IH]; simpl; [done|]. by rewrite IH. Qed.

Lemma digit_is_digit v :
  exists c, digit v = String c "" /\ Spec.is_digit c = true.
Proof.
  unfold digit. eexists; split; [done|].
  assert (Z.to_nat (v mod 10) < 10)%nat as Hlt.
  { pose proof (Z.mod_pos_bound v 10 eq_refl). lia. }
  revert Hlt. generalize (Z.to_nat (v mod 10)). intros n Hlt.
  do 10 (destruct n as [|n]; [reflexivity|]). lia.
Qed.

Lemma last_digits_length n v : String.length (last_digits n v) = n.
Proof.
  revert v. induction n as [|n IH]; intros v; simpl; [done|].
  rewrite length_app_string, IH.
  destruct (digit_is_digit v) as (c & -> & _). simpl. lia.
Qed.

Lemma last_digits_all_digits n v : Spec.all_digits (last_digits n v) = true.
Proof.
  revert v. induction n as [|n IH]; intros v; simpl; [done|].
  rewrite all_digits_app, IH.
  destruct (digit_is_digit v) as (c & -> & Hc). simpl. by rewrite Hc.
Qed.

Lemma uint_all_digits d :
  Spec.all_digits (DecimalString.NilEmpty.string_of_uint d) = true.
Proof. induction d; simpl; done. Qed.

Lemma decimal_all_digits v : Spec.all_digits (decimal v) = true.
Proof.
  unfold decimal, DecimalString.NilZero.string_of_uint.
  destruct (N.to_uint (Z.to_N v)) eqn:E; try done;
    rewrite <- E; apply uint_all_digits.
Qed.

Lemma decimal_nonempty v : 0 < String.length (decimal v).
Proof.
  unfold decimal, DecimalString.NilZero.string_of_uint.
  destruct (N.to_uint (Z.to_N v)); simpl; lia.
Qed.

Lemma fixed_shape prec s n :
  Spec.fixed_point (S prec) (sign s +:+ fixed (S prec) n).
Proof.
  exists s, (decimal (n / 10 ^ Z.of_nat (S prec))), (last_digits (S prec) n).
  split_and!.
  - reflexivity.
  - apply decimal_nonempty.
  - apply decimal_all_digits.
  - apply last_digits_length.
  - apply last_digits_all_digits.
Qed.

Lemma exponent_shape k :
  exists (eneg : bool) ex,
    exponent k = (if eneg then "-" else "+") +:+ ex /\
    2 <= String.length ex /\ Spec.all_digits ex = true.
Proof.
  unfold exponent. exists (k <? 0)%Z.
  destruct (Z.abs k <? 100)%Z; eexists; split_and!; try reflexivity;
    rewrite ?last_digits_length, ?last_digits_all_digits; auto.
Qed.

Lemma scientific_shape prec s n k :
  Spec.scientific (S prec) (sign s +:+ scientific (S prec) n k).
Proof.
  destruct (exponent_shape k) as (eneg & ex & Hex & Hlen & Hdig).
  destruct (digit_is_digit (n / 10 ^ Z.of_nat (S prec))) as (d & Hd & Hisd).
  exists s, eneg, d, (last_digits (S prec) n), ex. split_and!; auto.
  - unfold scientific. rewrite Hd, Hex. reflexivity.
  - apply last_digits_length.
  - apply last_digits_all_digits.
Qed.

(** A finite number prints with exactly [prec] digits after the point. *)
Lemma format_f_finite prec x :
  F64.finite x = true -> Spec.fixed_point (S prec) (format_f (S prec) x).
Proof.
  unfold F64.finite, format_f. destruct (Prim2SF x) as [s|s| |s m e]; try done.
  - intros _. apply fixed_shape.
  - intros _. destruct (magnitude m e) as [num den]. apply fixed_shape.
Qed.

(** A finite number prints in scientific notation with one digit before
    the point and exactly [prec] after it. *)
Lemma format_e_finite prec x :
  F64.finite x = true -> Spec.scientific (S prec) (format_e (S prec) x).
Proof.
  unfold F64.finite, format_e. destruct (Prim2SF x) as [s|s| |s m e]; try done.
  - intros _. apply scientific_shape.
  - intros _. destruct (magnitude m e) as [num den].
    destruct (scale10 _ _ _) as [n d].
    destruct (_ =? _)%Z; apply scientific_shape.
Qed.

(** NaN and the infinities print as words, whatever the format. *)
Lemma format_not_finite prec x :
  F64.finite x = false ->
  format_f prec x = format_e prec x /\
  format_f prec x ∈ ["nan"; "inf"; "-inf"].
Proof.
  unfold F64.finite, format_f, format_e.
  destruct (Prim2SF x) as [s|[]| |s m e]; try done; intros _;
    (split; [reflexivity|]); simpl; set_solver.
Qed.
End Formatting.

(** ** Runs on the example files *)

Lemma sample_run : run (world_with sample_csv) = (Ok sample_globals, sample_after).
Proof. vm_compute. reflexivity. Qed.

Lemma sample_df_wf : Pandas.wf sample_df.
Proof. reflexivity. Qed.

(** ** The claims *)

(** C1: after a run on a well-formed table, the sample kept for each of the
    three labels "Random", "PDF" and "Hunt and Target" is the ordered
    subsequence of the [average_shots] values of exactly the rows whose
    [strategy] equals that label, in the rows' original order. *)
Theorem partition_is_ordered_subsequence
    (parse_csv : string -> result Pandas.DataFrame)
    (stdtr : float -> float -> float) (w w' : World) (g : Globals.t) :
  script parse_csv stdtr w = (Ok g, w') ->
  Pandas.wf (Globals.df g) ->
  Globals.strategies g = Spec.labels /\
  Forall2 (Spec.ordered_subsequence (Pandas.rows (Globals.df g)))
    Spec.labels (samples g).
Proof.
  intros Hrun Hwf.
  destruct (script_ok_inv _ _ _ _ _ Hrun)
    as (data & df & series & shots & _ & _ & Hs & Hv & -> & _).
  split; [reflexivity|].
  unfold Pandas.wf, Pandas.rows, samples in *. simpl in *.
  rewrite Hs, Hv in *.
  repeat constructor; by apply take_mask_ordered_subsequence.
Qed.

Lemma partition_is_ordered_subsequence_witness :
  Pandas.wf (Globals.df sample_globals) /\
  Globals.strategies sample_globals = Spec.labels /\
  Forall2 (Spec.ordered_subsequence (Pandas.rows (Globals.df sample_globals)))
    Spec.labels (samples sample_globals).
Proof.
  split; [exact sample_df_wf|].
  exact (partition_is_ordered_subsequence PlainCsv.read Student2.stdtr
           (world_with sample_csv) sample_after sample_globals
           sample_run sample_df_wf).
Defined.

(** numpy's mean and standard deviation are the arithmetic mean and the
    population standard deviation. *)
Lemma np_mean_arithmetic a : NumPy.mean a = Spec.arithmetic_mean a.
Proof. reflexivity. Qed.





(** What a complete run prints is the report. *)
Lemma printed_after_run stdtr r p h w :
  printed w (after_run stdtr r p h w) = report stdtr r p h.
Proof. unfold printed, after_run. simpl. by rewrite drop_app_length. Qed.



(** With samples of different sizes Welch's variant gives another
    statistic than the pooled test the script runs. *)
Example welch_differs_from_pooled :
  let a := [10; 12; 11]%float in
  let b := [5; 6]%float in
  (fst (SciPy.ttest_ind_with Student2.stdtr false SciPy.TwoSided a b)
   =? fst (SciPy.ttest_ind Student2.stdtr a b))%float = false.
Proof. vm_compute. reflexivity. Qed.



(** C4: a complete run adds exactly four lines to standard output: the
    header, then one line "A vs B: t=..., p=..." for each of the pairs
    (Random, PDF), (Random, Hunt and Target), (PDF, Hunt and Target) in this
    order; [t] goes through the fixed-point format with precision 4 and [p]
    through the scientific format with precision 4, which for every finite
    number give exactly four digits after the decimal point (a NaN or an
    infinity prints as the word nan, inf or -inf in both). *)
Theorem console_four_lines
    (parse_csv : string -> result Pandas.DataFrame)
    (stdtr : float -> float -> float) (w w' : World) (g : Globals.t) :
  script parse_csv stdtr w = (Ok g, w') ->
  stdout w' = stdout w ++
    [ "T-test results:";
      "Random vs PDF: t=" +:+ PyFormat.format_f 4 (Globals.t_random_pdf g)
        +:+ ", p=" +:+ PyFormat.format_e 4 (Globals.p_random_pdf g);
      "Random vs Hunt and Target: t="
        +:+ PyFormat.format_f 4 (Globals.t_random_hunt g)
        +:+ ", p=" +:+ PyFormat.format_e 4 (Globals.p_random_hunt g);
      "PDF vs Hunt and Target: t="
        +:+ PyFormat.format_f 4 (Globals.t_pdf_hunt g)
        +:+ ", p=" +:+ PyFormat.format_e 4 (Globals.p_pdf_hunt g) ] /\
  (forall x,
     if F64.finite x
     then Spec.fixed_point 4 (PyFormat.format_f 4 x) /\
          Spec.scientific 4 (PyFormat.format_e 4 x)
     else PyFormat.format_f 4 x = PyFormat.format_e 4 x /\
          PyFormat.format_f 4 x ∈ ["nan"; "inf"; "-inf"]).
Proof.
  intros Hrun.
  destruct (script_ok_inv _ _ _ _ _ Hrun)
    as (data & df & series & shots & _ & _ & _ & _ & -> & ->).
  split.
  - reflexivity.
  - intros x. destruct (F64.finite x) eqn:Hx.
    + split; [by apply format_f_finite | by apply format_e_finite].
    + by apply format_not_finite.
Qed.

Lemma console_four_lines_witness :
  stdout sample_after =
    [ "T-test results:";
      "Random vs PDF: t=6.0000, p=2.6671e-02";
      "Random vs Hunt and Target: t=6.7082, p=2.1508e-02";
      "PDF vs Hunt and Target: t=3.0000, p=9.5466e-02" ] /\
  (forall x,
     if F64.finite x
     then Spec.fixed_point 4 (PyFormat.format_f 4 x) /\
          Spec.scientific 4 (PyFormat.format_e 4 x)
     else PyFormat.format_f 4 x = PyFormat.format_e 4 x /\
          PyFormat.format_f 4 x ∈ ["nan"; "inf"; "-inf"]).
Proof.
  pose proof (console_four_lines PlainCsv.read Student2.stdtr
                (world_with sample_csv) sample_after sample_globals sample_run)
    as [Hout Hshape].
  split; [|exact Hshape].
  rewrite Hout. vm_compute. reflexivity.
Defined.









(** C8: the run never changes the loaded table.  When it ends normally the
    table among the globals is the one read from the input file, every
    other global is a function of it, the file system differs from the
    initial one only by the two image files (written over whatever was
    there), standard output has only grown, and no figure stays open.  When
    it ends in an exception nothing has changed. *)
Theorem table_read_only_two_files_and_console
    (parse_csv : string -> result Pandas.DataFrame)
    (stdtr : float -> float -> float) (w : World) :
  match script parse_csv stdtr w with
  | (Ok g, w') =>
      (exists data, fs w !! csv_path = Some (Bytes data) /\
                    parse_csv data = Ok (Globals.df g)) /\
      derive stdtr (Globals.df g) = Ok g /\
      (exists bars boxes,
         fs w' = <[dist_png := Png boxes]> (<[cmp_png := Png bars]> (fs w))) /\
      fs w' !! csv_path = fs w !! csv_path /\
      (exists out, stdout w' = stdout w ++ out) /\
      figures w' = figures w
  | (Raise _, w') => w' = w
  end.
Proof.
  destruct (fs w !! csv_path) as [[data|fig]|] eqn:Hfile.
  - destruct (parse_csv data) as [df|e] eqn:Hparse.
    + rewrite (script_loaded _ _ _ _ _ Hfile Hparse).
      destruct (Pandas.strategy df) as [series|] eqn:Hs;
        [destruct (Pandas.average_shots df) as [shots|] eqn:Hv|].
      * rewrite (analyse_columns _ _ _ _ _ Hs Hv). unfold after_run. simpl.
        split_and!; eauto.
        -- unfold derive.
           by rewrite !(select_columns df series shots _ Hs Hv).
        -- rewrite !lookup_insert_ne by done. done.
      * by destruct (analyse_raises stdtr df w (or_intror Hv)) as [key ->].
      * by destruct (analyse_raises stdtr df w (or_introl Hs)) as [key ->].
    + by rewrite (script_parse_raises _ _ _ _ _ Hfile Hparse).
  - by rewrite (script_not_text _ _ _ _ Hfile).
  - by rewrite (script_missing_file _ _ _ Hfile).
Qed.

(** C9: the console output is a function of the bytes of the input file
    alone.  Two runs in worlds that hold the same bytes under the input
    path, whatever else differs (other files, earlier output, open
    figures), end the same way and print the same lines. *)
Theorem console_output_deterministic
    (parse_csv : string -> result Pandas.DataFrame)
    (stdtr : float -> float -> float) (w1 w2 : World) :
  fs w1 !! csv_path = fs w2 !! csv_path ->
  fst (script parse_csv stdtr w1) = fst (script parse_csv stdtr w2) /\
  printed w1 (snd (script parse_csv stdtr w1))
  = printed w2 (snd (script parse_csv stdtr w2)).
Proof.
  intros Hsame. unfold printed.
  destruct (fs w2 !! csv_path) as [[data|fig]|] eqn:Hfile.
  - destruct (parse_csv data) as [df|e] eqn:Hparse.
    + rewrite (script_loaded _ _ w1 _ _ Hsame Hparse),
        (script_loaded _ _ w2 _ _ Hfile Hparse).
      destruct (Pandas.strategy df) as [series|] eqn:Hs;
        [destruct (Pandas.average_shots df) as [shots|] eqn:Hv|].
      * rewrite !(analyse_columns _ _ _ _ _ Hs Hv). simpl.
        by rewrite !drop_app_length.
      * split; [by rewrite !analyse_derive|].
        destruct (analyse_raises stdtr df w1 (or_intror Hv)) as [k1 ->].
        destruct (analyse_raises stdtr df w2 (or_intror Hv)) as [k2 ->].
        simpl. by rewrite !drop_all.
      * split; [by rewrite !analyse_derive|].
        destruct (analyse_raises stdtr df w1 (or_introl Hs)) as [k1 ->].
        destruct (analyse_raises stdtr df w2 (or_introl Hs)) as [k2 ->].
        simpl. by rewrite !drop_all.
    + rewrite (script_parse_raises _ _ w1 _ _ Hsame Hparse),
        (script_parse_raises _ _ w2 _ _ Hfile Hparse).
      simpl. by rewrite !drop_all.
  - rewrite (script_not_text _ _ w1 _ Hsame), (script_not_text _ _ w2 _ Hfile).
    simpl. by rewrite !drop_all.
  - rewrite (script_missing_file _ _ w1 Hsame), (script_missing_file _ _ w2 Hfile).
    simpl. by rewrite !drop_all.
Qed.

Lemma console_output_deterministic_witness :
  fs (world_with sample_csv) !! csv_path = fs busy_world !! csv_path /\
  fst (run (world_with sample_csv)) = fst (run busy_world) /\
  printed (world_with sample_csv) (snd (run (world_with sample_csv)))
  = printed busy_world (snd (run busy_world)).
Proof.
  assert (fs (world_with sample_csv) !! csv_path = fs busy_world !! csv_path)
    as Hsame by (vm_compute; reflexivity).
  split; [exact Hsame|].
  exact (console_output_deterministic PlainCsv.read Student2.stdtr
           (world_with sample_csv) busy_world Hsame).
Defined.

(** ** Rows with another label *)









(** ** Identical samples *)

Section Identical.
Local Open Scope float_scope.




(** The same values in another order are summed in another order: the
    statistic is then a rounding error, not zero. *)
Example reordered_samples_round_differently :
  let a := [1 / 10; 2 / 10; 3 / 10] in
  let b := [3 / 10; 2 / 10; 1 / 10] in
  let t := fst (SciPy.ttest_ind Student2.stdtr a b) in
  (t =? 0) = false /\ F64.close t 0 0x1p-40 = true.
Proof. vm_compute. done. Qed.
End Identical.

(** * Further properties of the script *)

(** ** Which exception ends a failing run *)

Lemma analyse_no_strategy stdtr df w :
  Pandas.strategy df = None ->
  analyse stdtr df w = (Raise (KeyError "strategy"), w).
Proof.
  intros Hs.
  unfold analyse, mbind, M_bind, lift, select, Pandas.getitem_strategy.
  rewrite Hs. reflexivity.
Qed.

Lemma analyse_no_average_shots stdtr df series w :
  Pandas.strategy df = Some series -> Pandas.average_shots df = None ->
  analyse stdtr df w = (Raise (KeyError "average_shots"), w).
Proof.
  intros Hs Hv.
  unfold analyse, mbind, M_bind, lift, select, Pandas.getitem_strategy,
    Pandas.getitem_average_shots, Pandas.getitem_mask.
  rewrite Hs. simpl. rewrite Hv. reflexivity.
Qed.




(** ** The two chart files *)

(** X2: after a complete run each chart file holds a figure of its own: 10
    by 6, with the fixed title and y label and exactly one artist, the bars
    with cap size 5 in one and the box plot of the three samples, labelled
    with the three strategies, in the other.  Figures that were open before
    the run leave no trace in either. *)
Theorem chart_files_hold_fresh_figures
    (parse_csv : string -> result Pandas.DataFrame)
    (stdtr : float -> float -> float) (w w' : World) (g : Globals.t) :
  script parse_csv stdtr w = (Ok g, w') ->
  fs w' !! cmp_png
  = Some (Png {| Pyplot.figsize := Some (10, 6)%Z;
                 Pyplot.artists :=
                   [Pyplot.Bar (Globals.strategies g) (Globals.means g)
                      (Globals.stds g) 5];
                 Pyplot.title := "Average Shots to Win by Strategy";
                 Pyplot.ylabel := "Number of Shots" |}) /\
  fs w' !! dist_png
  = Some (Png {| Pyplot.figsize := Some (10, 6)%Z;
                 Pyplot.artists :=
                   [Pyplot.Boxplot (samples g) (Globals.strategies g)];
                 Pyplot.title := "Distribution of Shots to Win by Strategy";
                 Pyplot.ylabel := "Number of Shots" |}).
Proof.
  intros Hrun.
  destruct (script_ok_inv _ _ _ _ _ Hrun)
    as (data & df & series & shots & _ & _ & _ & _ & -> & ->).
  unfold after_run. simpl. split.
  - rewrite lookup_insert_ne by done. by rewrite lookup_insert_eq.
  - by rewrite lookup_insert_eq.
Qed.

Lemma busy_run : run busy_world = (Ok sample_globals, busy_after).
Proof. vm_compute. reflexivity. Qed.

Lemma chart_files_hold_fresh_figures_witness :
  let w' := busy_after in
  let g := sample_globals in
  fs w' !! cmp_png
  = Some (Png {| Pyplot.figsize := Some (10, 6)%Z;
                 Pyplot.artists :=
                   [Pyplot.Bar (Globals.strategies g) (Globals.means g)
                      (Globals.stds g) 5];
                 Pyplot.title := "Average Shots to Win by Strategy";
                 Pyplot.ylabel := "Number of Shots" |}) /\
  fs w' !! dist_png
  = Some (Png {| Pyplot.figsize := Some (10, 6)%Z;
                 Pyplot.artists :=
                   [Pyplot.Boxplot (samples g) (Globals.strategies g)];
                 Pyplot.title := "Distribution of Shots to Win by Strategy";
                 Pyplot.ylabel := "Number of Shots" |}).
Proof.
  exact (chart_files_hold_fresh_figures PlainCsv.read Student2.stdtr
           busy_world busy_after sample_globals busy_run).
Defined.

(** ** Running the script again *)

(** X3: a second run right after a complete one completes too, computes
    the same globals, leaves the file system as the first run left it (the
    two charts are written over with the same figures), prints the same
    four lines once more and leaves the open figures alone. *)
Theorem rerun_repeats_output_and_keeps_files
    (parse_csv : string -> result Pandas.DataFrame)
    (stdtr : float -> float -> float) (w w1 : World) (g : Globals.t) :
  script parse_csv stdtr w = (Ok g, w1) ->
  exists w2,
    script parse_csv stdtr w1 = (Ok g, w2) /\
    fs w2 = fs w1 /\
    stdout w2 = stdout w1 ++ printed w w1 /\
    figures w2 = figures w1.
Proof.
  intros Hrun.
  destruct (script_ok_inv _ _ _ _ _ Hrun)
    as (data & df & series & shots & Hfile & Hparse & Hs & Hv & -> & ->).
  eexists. split.
  { rewrite (script_loaded _ _ _ data df); [| |done].
    - apply (analyse_columns _ _ _ _ _ Hs Hv).
    - unfold after_run. simpl. by rewrite !lookup_insert_ne. }
  rewrite printed_after_run. unfold after_run. simpl. split_and!; try done.
  apply map_eq. intros path.
  destruct (decide (path = dist_png)) as [->|Hd].
  { by rewrite !lookup_insert_eq. }
  rewrite !(lookup_insert_ne _ dist_png path) by done.
  destruct (decide (path = cmp_png)) as [->|Hc].
  { by rewrite !lookup_insert_eq. }
  repeat (rewrite lookup_insert_ne by done). done.
Qed.

Lemma rerun_repeats_output_and_keeps_files_witness :
  exists w2,
    run sample_after = (Ok sample_globals, w2) /\
    fs w2 = fs sample_after /\
    stdout w2 = stdout sample_after ++ printed (world_with sample_csv) sample_after /\
    figures w2 = figures sample_after.
Proof.
  exact (rerun_repeats_output_and_keeps_files PlainCsv.read Student2.stdtr
           (world_with sample_csv) sample_after sample_globals sample_run).
Defined.

(** ** Sizes of the samples *)

Lemma take_mask_length {A : Type} (series : list string) (col : list A)
    (label : string) :
  length series = length col ->
  length (Pandas.take_mask (Pandas.eq_mask series label) col)
  = length (filter (fun s => s = label) series).
Proof.
  revert col. induction series as [|s series IH]; intros [|x col] Hlen;
    simpl in *; try done.
  rewrite filter_cons.
  destruct (String.eqb_spec s label) as [->|Hne].
  - rewrite decide_True by done. simpl. f_equal. apply IH. lia.
  - rewrite decide_False by done. apply IH. lia.
Qed.

Lemma label_cases (s : string) :
  (s = "Random" \/ s = "PDF" \/ s = "Hunt and Target") \/ s ∉ Spec.labels.
Proof.
  destruct (decide (s ∈ Spec.labels)) as [Hin|Hout]; [left|by right].
  unfold Spec.labels in Hin.
  repeat (apply elem_of_cons in Hin as [Hin|Hin]; [by auto|]).
  by apply elem_of_nil in Hin.
Qed.

Lemma known_rows_partition (series : list string) :
  length (filter (fun s => s = "Random") series)
  + length (filter (fun s => s = "PDF") series)
  + length (filter (fun s => s = "Hunt and Target") series)
  + length (filter (fun s => s ∉ Spec.labels) series)
  = length series.
Proof.
  induction series as [|s series IH]; [done|].
  rewrite !filter_cons. simpl length at 5.
  destruct (label_cases s) as [[-> | [-> | ->]] | Hout].
  - rewrite decide_True by done. rewrite !decide_False; [|set_solver|done|done].
    simpl. lia.
  - rewrite (decide_False (P := "PDF" = "Random")) by done.
    rewrite decide_True by done. rewrite !decide_False; [|set_solver|done].
    simpl. lia.
  - rewrite (decide_False (P := "Hunt and Target" = "Random")) by done.
    rewrite (decide_False (P := "Hunt and Target" = "PDF")) by done.
    rewrite decide_True by done. rewrite decide_False by set_solver.
    simpl. lia.
  - rewrite (decide_True (P := s ∉ Spec.labels)) by done.
    rewrite !decide_False;
      try (intros ->; apply Hout; unfold Spec.labels; set_solver).
    simpl. lia.
Qed.

(** X4: each sample has as many values as the table has rows with its
    label, a row counting once for each time it occurs; the three samples
    together with the rows of any other label account for every row of the
    table exactly once. *)
Theorem sample_sizes_account_for_rows
    (parse_csv : string -> result Pandas.DataFrame)
    (stdtr : float -> float -> float) (w w' : World) (g : Globals.t)
    (series : list string) :
  script parse_csv stdtr w = (Ok g, w') ->
  Pandas.wf (Globals.df g) ->
  Pandas.strategy (Globals.df g) = Some series ->
  Forall2 (fun label sample =>
             length sample = length (filter (fun s => s = label) series))
    Spec.labels (samples g) /\
  length (Globals.random_results g) + length (Globals.pdf_results g)
  + length (Globals.hunt_target_results g)
  + length (filter (fun s => s ∉ Spec.labels) series)
  = length series.
Proof.
  intros Hrun Hwf Hseries.
  destruct (script_ok_inv _ _ _ _ _ Hrun)
    as (data & df & series' & shots & _ & _ & Hs & Hv & -> & _).
  unfold Pandas.wf in Hwf. simpl in Hwf, Hseries. rewrite Hs, Hv in Hwf.
  assert (series' = series) as -> by congruence.
  unfold samples, Spec.labels.
  cbn [summary Globals.random_results Globals.pdf_results
       Globals.hunt_target_results].
  split.
  - constructor; [|constructor; [|constructor; [|constructor]]];
      by apply take_mask_length.
  - rewrite !(take_mask_length series shots _ Hwf).
    apply known_rows_partition.
Qed.

Lemma sample_sizes_account_for_rows_witness :
  let g := fst_ok (run (world_with extra_row_csv)) sample_globals in
  let series := ["Random"; "Random"; "Sonar"; "PDF"; "PDF";
                 "Hunt and Target"; "Hunt and Target"] in
  Forall2 (fun label sample =>
             length sample = length (filter (fun s => s = label) series))
    Spec.labels (samples g) /\
  length (Globals.random_results g) + length (Globals.pdf_results g)
  + length (Globals.hunt_target_results g)
  + length (filter (fun s => s ∉ Spec.labels) series)
  = length series.
Proof.
  refine (sample_sizes_account_for_rows PlainCsv.read Student2.stdtr
            (world_with extra_row_csv) (snd (run (world_with extra_row_csv)))
            _ _ _ _ _).
  - vm_compute. reflexivity.
  - vm_compute. reflexivity.
  - vm_compute. reflexivity.
Defined.

(** ** More binary64 facts *)

Section MoreFloats.
Local Open Scope float_scope.

(** A rounded result carries the sign it was given, or is a NaN. *)
Lemma binary_round_aux_sign s m e l :
  sign_is s (binary_round_aux prec emax s m e l).
Proof.
  unfold binary_round_aux.
  destruct (shr_fexp prec emax m e l) as [mrs' e'].
  destruct (shr_fexp prec emax _ e' loc_Exact) as [mrs'' e''].
  destruct (shr_m mrs''); simpl; try done.
  by destruct (_ <=? _)%Z.
Qed.

Lemma binary_round_sign s m e : sign_is s (binary_round prec emax s m e).
Proof.
  unfold binary_round. destruct (shl_align _ _ _).
  apply binary_round_aux_sign.
Qed.

Lemma sign_is_not_negative x :
  sign_is false (Prim2SF x) -> not_negative x = true.
Proof.
  unfold not_negative.
  destruct (Prim2SF x) as [s|s| |s m e]; simpl; try done; by intros ->.
Qed.

Lemma not_negative_sign_is x :
  not_negative x = true -> sign_is false (Prim2SF x).
Proof. unfold not_negative. by destruct (Prim2SF x) as [[]|[]| |[] ? ?]. Qed.

Lemma not_negative_square x : not_negative (x * x) = true.
Proof.
  apply sign_is_not_negative. rewrite mul_spec.
  destruct (Prim2SF x) as [[]|[]| |[] m e]; simpl; try done;
    apply (binary_round_aux_sign false).
Qed.

Lemma not_negative_add x y :
  not_negative x = true -> not_negative y = true ->
  not_negative (x + y) = true.
Proof.
  intros Hx%not_negative_sign_is Hy%not_negative_sign_is.
  apply sign_is_not_negative. rewrite add_spec.
  destruct (Prim2SF x) as [sx|sx| |sx mx ex], (Prim2SF y) as [sy|sy| |sy my ey];
    simpl in *; subst; try done.
  unfold SF64add, SFadd. simpl cond_Zopp.
  apply binary_round_sign.
Qed.

Lemma not_negative_sum xs acc :
  not_negative acc = true -> Forall (fun x => not_negative x = true) xs ->
  not_negative (fold_left PrimFloat.add xs acc) = true.
Proof.
  intros Hacc Hxs. revert acc Hacc.
  induction Hxs as [|x xs Hx _ IH]; intros acc Hacc; simpl; [done|].
  apply IH. by apply not_negative_add.
Qed.

Lemma not_negative_of_nat n : not_negative (F64.of_nat n) = true.
Proof.
  apply sign_is_not_negative. unfold F64.of_nat. rewrite of_uint63_spec.
  pose proof (Uint63.to_Z_bounded (Uint63.of_Z (Z.of_nat n))) as [Hpos _].
  destruct (Uint63Axioms.to_Z _) as [|k|k]; simpl; try done.
  apply binary_round_sign.
Qed.

Lemma not_negative_div x y :
  not_negative x = true -> not_negative y = true ->
  not_negative (x / y) = true.
Proof.
  intros Hx%not_negative_sign_is Hy%not_negative_sign_is.
  apply sign_is_not_negative. rewrite div_spec.
  destruct (Prim2SF x) as [sx|sx| |sx mx ex], (Prim2SF y) as [sy|sy| |sy my ey];
    simpl in *; subst; try done.
  destruct (SFdiv_core_binary _ _ _ _ _ _) as [[mz ez] lz].
  apply binary_round_aux_sign.
Qed.

Lemma not_negative_sqrt x :
  not_negative x = true -> not_negative (sqrt x) = true.
Proof.
  intros Hx%not_negative_sign_is.
  apply sign_is_not_negative. rewrite sqrt_spec.
  destruct (Prim2SF x) as [sx|sx| |sx mx ex]; simpl in *; subst; try done.
  destruct (SFsqrt_core_binary _ _ _ _) as [[mz ez] lz].
  apply binary_round_aux_sign.
Qed.

(** numpy's standard deviation is never negative. *)
Lemma std_not_negative a : not_negative (NumPy.std a) = true.
Proof.
  unfold NumPy.std, NumPy.std_ddof, NumPy.var, NumPy.sum.
  apply not_negative_sqrt, not_negative_div; [|apply not_negative_of_nat].
  apply not_negative_sum; [done|].
  apply Forall_forall. intros y Hy.
  apply list_elem_of_In, in_map_iff in Hy as (v & <- & _).
  apply not_negative_square.
Qed.

(** NaN is absorbing. *)
Lemma isnan_spec x : F64.isnan x = true <-> Prim2SF x = S754_nan.
Proof. unfold F64.isnan. by destruct (Prim2SF x). Qed.

Lemma add_nan_l x y : F64.isnan x = true -> F64.isnan (x + y) = true.
Proof.
  rewrite !isnan_spec, add_spec. intros ->. reflexivity.
Qed.

Lemma add_nan_r x y : F64.isnan y = true -> F64.isnan (x + y) = true.
Proof.
  rewrite !isnan_spec, add_spec. intros ->. by destruct (Prim2SF x).
Qed.

Lemma sub_nan_l x y : F64.isnan x = true -> F64.isnan (x - y) = true.
Proof. rewrite !isnan_spec, sub_spec. intros ->. reflexivity. Qed.

Lemma sub_nan_r x y : F64.isnan y = true -> F64.isnan (x - y) = true.
Proof.
  rewrite !isnan_spec, sub_spec. intros ->. by destruct (Prim2SF x).
Qed.

Lemma mul_nan_l x y : F64.isnan x = true -> F64.isnan (x * y) = true.
Proof. rewrite !isnan_spec, mul_spec. intros ->. reflexivity. Qed.

Lemma div_nan_l x y : F64.isnan x = true -> F64.isnan (x / y) = true.
Proof. rewrite !isnan_spec, div_spec. intros ->. reflexivity. Qed.

Lemma sqrt_nan x : F64.isnan x = true -> F64.isnan (sqrt x) = true.
Proof. rewrite !isnan_spec, sqrt_spec. intros ->. reflexivity. Qed.

Lemma sum_nan_acc xs acc :
  F64.isnan acc = true -> F64.isnan (fold_left PrimFloat.add xs acc) = true.
Proof.
  revert acc. induction xs as [|x xs IH]; intros acc Hacc; simpl; [done|].
  by apply IH, add_nan_l.
Qed.

Lemma sum_has_nan xs acc :
  has_nan xs = true -> F64.isnan (fold_left PrimFloat.add xs acc) = true.
Proof.
  unfold has_nan. revert acc.
  induction xs as [|x xs IH]; intros acc Hnan; simpl in *; [done|].
  apply orb_true_iff in Hnan as [Hx|Hxs].
  - by apply sum_nan_acc, add_nan_r.
  - by apply IH.
Qed.

Lemma mean_has_nan a : has_nan a = true -> F64.isnan (NumPy.mean a) = true.
Proof. intros H. by apply div_nan_l, sum_has_nan. Qed.

Lemma std_has_nan a : has_nan a = true -> F64.isnan (NumPy.std a) = true.
Proof.
  intros H. unfold NumPy.std, NumPy.std_ddof, NumPy.var.
  apply sqrt_nan, div_nan_l, sum_has_nan.
  pose proof (mean_has_nan a H) as Hmean. unfold NumPy.mean in Hmean.
  destruct a as [|x a]; [done|]. simpl.
  apply orb_true_iff. left. by apply mul_nan_l, sub_nan_r.
Qed.

Lemma ttest_has_nan stdtr a b :
  has_nan a = true \/ has_nan b = true ->
  F64.isnan (fst (SciPy.ttest_ind stdtr a b)) = true.
Proof.
  intros H. unfold SciPy.ttest_ind, SciPy.ttest_ind_with.
  destruct a as [|x a]; [done|]. destruct b as [|y b]; [done|].
  unfold SciPy.equal_var_ttest_denom, SciPy.ttest_ind_from_stats.
  cbn [fst]. apply div_nan_l.
  destruct H as [H|H];
    [apply sub_nan_l | apply sub_nan_r]; by apply mean_has_nan.
Qed.
End MoreFloats.

(** ** Missing values and error bars *)

Lemma analyse_ok_inv stdtr df w g w' :
  analyse stdtr df w = (Ok g, w') ->
  exists r p h, g = summary stdtr df r p h /\ w' = after_run stdtr r p h w.
Proof.
  intros Hrun.
  destruct (Pandas.strategy df) as [series|] eqn:Hs;
    [destruct (Pandas.average_shots df) as [shots|] eqn:Hv|].
  - rewrite (analyse_columns _ _ _ _ _ Hs Hv) in Hrun. simplify_eq. eauto.
  - by rewrite (analyse_no_average_shots _ _ _ _ Hs Hv) in Hrun.
  - by rewrite (analyse_no_strategy _ _ _ Hs) in Hrun.
Qed.

(** X5: a NaN among the values of a strategy (a missing value in the
    file) is not dropped: the mean and the standard deviation of that
    strategy are NaN, and so is the t statistic of each pair the strategy
    is part of. *)
Theorem nan_value_poisons_statistics
    (stdtr : float -> float -> float) (df : Pandas.DataFrame)
    (w w' : World) (g : Globals.t) :
  analyse stdtr df w = (Ok g, w') ->
  (forall i a, samples g !! i = Some a -> has_nan a = true ->
     exists m s, Globals.means g !! i = Some m /\ Globals.stds g !! i = Some s /\
                 F64.isnan m = true /\ F64.isnan s = true) /\
  (has_nan (Globals.random_results g) || has_nan (Globals.pdf_results g) = true ->
   F64.isnan (Globals.t_random_pdf g) = true) /\
  (has_nan (Globals.random_results g)
   || has_nan (Globals.hunt_target_results g) = true ->
   F64.isnan (Globals.t_random_hunt g) = true) /\
  (has_nan (Globals.pdf_results g)
   || has_nan (Globals.hunt_target_results g) = true ->
   F64.isnan (Globals.t_pdf_hunt g) = true).
Proof.
  intros Hrun. destruct (analyse_ok_inv _ _ _ _ _ Hrun) as (r & p & h & -> & _).
  unfold samples, summary.
  cbn [Globals.random_results Globals.pdf_results Globals.hunt_target_results
       Globals.means Globals.stds Globals.t_random_pdf Globals.t_random_hunt
       Globals.t_pdf_hunt].
  split_and!.
  - intros i a Hi Hnan.
    destruct i as [|[|[|i]]]; simpl in Hi; simplify_eq; eexists _, _;
      (split_and!; [reflexivity | reflexivity
                   | by apply mean_has_nan | by apply std_has_nan]).
  - intros H%orb_true_iff. by apply ttest_has_nan.
  - intros H%orb_true_iff. by apply ttest_has_nan.
  - intros H%orb_true_iff. by apply ttest_has_nan.
Qed.

Lemma nan_analyse :
  analyse Student2.stdtr nan_df (world_with sample_csv)
  = (Ok nan_globals,
     after_run Student2.stdtr [10; 12]%float [5; nan]%float []
       (world_with sample_csv)).
Proof. vm_compute. reflexivity. Qed.

Lemma nan_value_poisons_statistics_witness :
  let g := nan_globals in
  (forall i a, samples g !! i = Some a -> has_nan a = true ->
     exists m s, Globals.means g !! i = Some m /\ Globals.stds g !! i = Some s /\
                 F64.isnan m = true /\ F64.isnan s = true) /\
  (has_nan (Globals.random_results g) || has_nan (Globals.pdf_results g) = true ->
   F64.isnan (Globals.t_random_pdf g) = true) /\
  (has_nan (Globals.random_results g)
   || has_nan (Globals.hunt_target_results g) = true ->
   F64.isnan (Globals.t_random_hunt g) = true) /\
  (has_nan (Globals.pdf_results g)
   || has_nan (Globals.hunt_target_results g) = true ->
   F64.isnan (Globals.t_pdf_hunt g) = true).
Proof.
  exact (nan_value_poisons_statistics Student2.stdtr nan_df
           (world_with sample_csv) _ nan_globals nan_analyse).
Defined.

(** X6: no error bar handed to the bar chart is negative: each of the
    three standard deviations has a clear sign bit or is a NaN, whatever the
    samples hold (NaN, infinities and empty samples included). *)
Theorem error_bars_never_negative
    (parse_csv : string -> result Pandas.DataFrame)
    (stdtr : float -> float -> float) (w w' : World) (g : Globals.t) :
  script parse_csv stdtr w = (Ok g, w') ->
  Forall (fun s => not_negative s = true) (Globals.stds g).
Proof.
  intros Hrun.
  destruct (script_ok_inv _ _ _ _ _ Hrun)
    as (data & df & series & shots & _ & _ & _ & _ & -> & _).
  unfold summary. cbn [Globals.stds].
  repeat constructor; apply std_not_negative.
Qed.

Lemma error_bars_never_negative_witness :
  Forall (fun s => not_negative s = true) (Globals.stds sample_globals).
Proof.
  exact (error_bars_never_negative PlainCsv.read Student2.stdtr
           (world_with sample_csv) sample_after sample_globals sample_run).
Defined.

(** ** The order of the two samples of a pair *)

Section Swap.
Local Open Scope float_scope.

Lemma add_comm x y : x + y = y + x.
Proof.
  apply Prim2SF_inj. rewrite !add_spec.
  destruct (Prim2SF x) as [[]|[]| |sx mx ex], (Prim2SF y) as [[]|[]| |sy my ey];
    try reflexivity.
  unfold SF64add, SFadd.
  assert (IntDef.Z.min ey ex = IntDef.Z.min ex ey) as -> by apply Z.min_comm.
  f_equal. apply Z.add_comm.
Qed.

Lemma binary_round_aux_abs s s' m e l :
  SFabs (binary_round_aux prec emax s m e l)
  = SFabs (binary_round_aux prec emax s' m e l).
Proof.
  unfold binary_round_aux.
  destruct (shr_fexp prec emax m e l) as [mrs' e'].
  destruct (shr_fexp prec emax _ e' loc_Exact) as [mrs'' e''].
  destruct (shr_m mrs''); simpl; try done.
  by destruct (_ <=? _)%Z.
Qed.

Lemma binary_round_abs s s' m e :
  SFabs (binary_round prec emax s m e) = SFabs (binary_round prec emax s' m e).
Proof.
  unfold binary_round. destruct (shl_align _ _ _).
  apply binary_round_aux_abs.
Qed.

Lemma binary_normalize_opp_abs m e :
  SFabs (binary_normalize prec emax m e false)
  = SFabs (binary_normalize prec emax (- m) e false).
Proof. destruct m; simpl; [done| |]; apply binary_round_abs. Qed.

(** The two differences of a pair of numbers have one magnitude. *)
Lemma abs_sub_swap x y : abs (x - y) = abs (y - x).
Proof.
  apply Prim2SF_inj. rewrite !abs_spec, !sub_spec.
  destruct (Prim2SF x) as [[]|[]| |sx mx ex], (Prim2SF y) as [[]|[]| |sy my ey];
    try reflexivity.
  unfold SF64sub, SFsub.
  assert (IntDef.Z.min ey ex = IntDef.Z.min ex ey) as -> by apply Z.min_comm.
  rewrite binary_normalize_opp_abs. f_equal. f_equal.
  lia.
Qed.

(** The magnitude of a quotient is settled by that of the numerator. *)
Lemma abs_div_numerator x x' y : abs x = abs x' -> abs (x / y) = abs (x' / y).
Proof.
  intros H. apply (f_equal Prim2SF) in H. rewrite !abs_spec in H.
  apply Prim2SF_inj. rewrite !abs_spec, !div_spec.
  destruct (Prim2SF x) as [sx|sx| |sx mx ex],
    (Prim2SF x') as [sx'|sx'| |sx' mx' ex'];
    simpl in H; simplify_eq;
    destruct (Prim2SF y) as [sy|sy| |sy my ey]; simpl; try reflexivity.
  destruct (SFdiv_core_binary _ _ _ _ _ _) as [[mz ez] lz].
  apply binary_round_aux_abs.
Qed.

(** X7: the order in which the two samples of a pair are handed to the
    test changes the sign of t at most: the p value and the magnitude of
    t are the same either way. *)
Theorem ttest_pair_order (stdtr : float -> float -> float)
    (a b : NumPy.ndarray) :
  snd (SciPy.ttest_ind stdtr b a) = snd (SciPy.ttest_ind stdtr a b) /\
  abs (fst (SciPy.ttest_ind stdtr b a))
  = abs (fst (SciPy.ttest_ind stdtr a b)).
Proof.
  unfold SciPy.ttest_ind, SciPy.ttest_ind_with.
  destruct a as [|x a], b as [|y b]; try done.
  unfold SciPy.equal_var_ttest_denom, SciPy.ttest_ind_from_stats,
    SciPy.pvalue. cbn [fst snd].
  set (na := F64.of_nat (length (x :: a))).
  set (nb := F64.of_nat (length (y :: b))).
  set (va := NumPy.var 1 (x :: a)). set (vb := NumPy.var 1 (y :: b)).
  set (ma := NumPy.mean (x :: a)). set (mb := NumPy.mean (y :: b)).
  rewrite (add_comm nb na), (add_comm ((nb - 1) * vb)),
    (add_comm (1 / nb)).
  set (denom := sqrt _).
  assert (abs ((mb - ma) / denom) = abs ((ma - mb) / denom)) as Habs
    by apply abs_div_numerator, abs_sub_swap.
  by rewrite Habs.
Qed.
End Swap.
